(** * Philippine telco news aggregator: relevance filtering, deduplication
      and merging

    A shallow embedding of the filtering core of the aggregator:

    - [services/geminiService.ts]: [convertBuzzSumoToNewsArticle],
      [normalizeUrl], [normalizeTitle], [areDuplicateArticles],
      [mergeNewsWithBuzzSumo];
    - [services/buzzsumoService.ts]: [deduplicateArticles],
      [validateTelcoRelevance], [filterImportantArticles],
      [fetchPhilippineTelcoNews];
    - the server file: [calculateTitleSimilarity] and the [/api/news]
      handler.

    Conventions of the embedding.

    - A JavaScript string is a [string]; each character stands for one code
      unit below 256 (the Latin-1 range).  On that range [toLowerCase], the
      regular-expression classes [\w] and [\s] and [trim] are modelled
      exactly; code units from 256 on are outside the model.
    - A JavaScript number that counts shares is a [Z].
    - A [Set<string>] is a [gset string].
    - The value of a settled promise is a [settled]; [try]/[catch] is a
      match on it.
    - The platform's [URL] class is an interface ([Platform]); a model of it
      for plain http(s) addresses is [whatwg]. *)

From Stdlib Require Import Floats.PrimFloat.
From Stdlib Require Import Ascii String ZArith Lia Permutation Sorted.
From stdpp Require Import base gmap sets list strings pretty.

Open Scope string_scope.

(* ===================================================================== *)
(** ** JavaScript string primitives *)
(* ===================================================================== *)

Module JS.

(** Code unit of a character. *)
Definition code (c : ascii) : nat := nat_of_ascii c.

Definition between (lo hi n : nat) : bool := (lo <=? n)%nat && (n <=? hi)%nat.

(** [\s] on code units below 256: TAB, LF, VT, FF, CR, SPACE, NBSP. *)
Definition isSpace (c : ascii) : bool :=
  between 9 13 (code c) || (code c =? 32)%nat || (code c =? 160)%nat.

(** [\w] is [[A-Za-z0-9_]]. *)
Definition isWord (c : ascii) : bool :=
  between 48 57 (code c) || between 65 90 (code c)
  || between 97 122 (code c) || (code c =? 95)%nat.

(** [String.prototype.toLowerCase] on code units below 256: [A-Z] and the
    Latin-1 capitals U+00C0..U+00DE (without the sign U+00D7) move up by 32. *)
Definition toLowerChar (c : ascii) : ascii :=
  let n := code c in
  if between 65 90 n || (between 192 222 n && negb (n =? 215)%nat)
  then ascii_of_nat (n + 32) else c.

Fixpoint toLowerCase (s : string) : string :=
  match s with
  | "" => ""
  | String c r => String (toLowerChar c) (toLowerCase r)
  end.

(** Every character of [s] passes [p]. *)
Fixpoint allChars (p : ascii -> bool) (s : string) : bool :=
  match s with
  | "" => true
  | String c r => p c && allChars p r
  end.

(** [s] with [f] applied to each character. *)
Fixpoint mapChars (f : ascii -> ascii) (s : string) : string :=
  match s with
  | "" => ""
  | String c r => String (f c) (mapChars f r)
  end.

(** [s.startsWith(p)]. *)
Fixpoint startsWith (p s : string) : bool :=
  match p, s with
  | "", _ => true
  | String a p', String b s' => Ascii.eqb a b && startsWith p' s'
  | String _ _, "" => false
  end.

(** [hay.includes(needle)]: [needle] starts at some position of [hay]. *)
Fixpoint includes (needle hay : string) : bool :=
  startsWith needle hay
  || match hay with
     | "" => false
     | String _ r => includes needle r
     end.

(** [s.replace(/^p/, '')] for a literal [p]. *)
Fixpoint stripPrefix (p s : string) : option string :=
  match p, s with
  | "", _ => Some s
  | String a p', String b s' =>
      if Ascii.eqb a b then stripPrefix p' s' else None
  | String _ _, "" => None
  end.

Definition replacePrefix (p s : string) : string :=
  match stripPrefix p s with
  | Some r => r
  | None => s
  end.

(** [s.replace(/\/$/, '')]: one slash is removed, at the very end. *)
Fixpoint replaceTrailingSlash (s : string) : string :=
  match s with
  | "" => ""
  | String c r =>
      match r with
      | "" => if Ascii.eqb c "/" then "" else s
      | String _ _ => String c (replaceTrailingSlash r)
      end
  end.

(** [s.split(sep)[0]] for a one-character [sep]. *)
Fixpoint upTo (sep : ascii) (s : string) : string :=
  match s with
  | "" => ""
  | String c r => if Ascii.eqb c sep then "" else String c (upTo sep r)
  end.

(** [s.replace(/[^\w\s]/g, '')]. *)
Fixpoint keepWordAndSpace (s : string) : string :=
  match s with
  | "" => ""
  | String c r =>
      if isWord c || isSpace c then String c (keepWordAndSpace r)
      else keepWordAndSpace r
  end.

(** [s.replace(/\s+/g, ' ')]: every maximal run of white space becomes one
    space. *)
Fixpoint collapseSpaces (s : string) : string :=
  match s with
  | "" => ""
  | String c r =>
      if isSpace c then
        match r with
        | String c' _ => if isSpace c' then collapseSpaces r
                         else String " " (collapseSpaces r)
        | "" => " "
        end
      else String c (collapseSpaces r)
  end.

Fixpoint trimStart (s : string) : string :=
  match s with
  | "" => ""
  | String c r => if isSpace c then trimStart r else s
  end.

Fixpoint trimEnd (s : string) : string :=
  match s with
  | "" => ""
  | String c r =>
      match trimEnd r with
      | "" => if isSpace c then "" else String c ""
      | r' => String c r'
      end
  end.

(** [s.trim()]. *)
Definition trim (s : string) : string := trimEnd (trimStart s).

(** The head of a non-empty token list grows by one character. *)
Definition consHead (c : ascii) (ws : list string) : list string :=
  match ws with
  | [] => [String c ""]
  | w :: r => String c w :: r
  end.

(** [s.split(/\s+/)]: the pieces between maximal runs of white space; a run
    at either end leaves an empty piece there, and [''] gives [['']]. *)
Fixpoint splitSpaces (s : string) : list string :=
  match s with
  | "" => [""]
  | String c r =>
      if isSpace c then
        match r with
        | String c' _ => if isSpace c' then splitSpaces r
                         else "" :: splitSpaces r
        | "" => [""; ""]
        end
      else consHead c (splitSpaces r)
  end.

(** [s.split(sep)] for a one-character [sep]. *)
Fixpoint split (sep : ascii) (s : string) : list string :=
  match s with
  | "" => [""]
  | String c r =>
      if Ascii.eqb c sep then "" :: split sep r
      else consHead c (split sep r)
  end.

(** [xs.findIndex(p)], with [None] for [-1]. *)
Fixpoint findIndex {A} (p : A -> bool) (xs : list A) : option nat :=
  match xs with
  | [] => None
  | x :: r => if p x then Some 0%nat else S <$> findIndex p r
  end.

(** [xs.some(p)]. *)
Definition some {A} (p : A -> bool) (xs : list A) : bool := existsb p xs.

(** Truthiness of an optional string: [undefined] and [''] are falsy. *)
Definition truthy (o : option string) : bool :=
  match o with
  | Some s => negb (String.eqb s "")
  | None => false
  end.

(** [o || d] for an optional string [o]. *)
Definition orElse (o : option string) (d : string) : string :=
  match o with
  | Some s => if String.eqb s "" then d else s
  | None => d
  end.

End JS.

(* ===================================================================== *)
(** ** The platform's URL class *)
(* ===================================================================== *)

(** What [normalizeUrl] reads of a parsed address. *)
Module URL.
Record t := mk { hostname : string; pathname : string }.
End URL.

(** [new URL(url)]: the parsed address, or [None] when the constructor
    throws. *)
Class Platform := { newURL : string -> option URL.t }.

(** A model of the constructor for addresses of the shape
    [scheme://host[:port][/path][?query][#fragment]] with scheme http,
    https, ws, wss or ftp.  It is exact when the host is made of ASCII
    letters, digits, [-], [_] and [.] (and is not a number the platform would
    rewrite as an IPv4 address), the port is a number below 65536 and the
    path has no dot segment and no character the platform percent-encodes.
    An address without a scheme makes the constructor throw.  Any other
    scheme is read as an opaque path with an empty host; the platform does
    more for [file:] and for a [//host] part after such a scheme. *)
Module Whatwg.

Import JS.

Definition isAlpha (c : ascii) : bool :=
  between 65 90 (code c) || between 97 122 (code c).

Definition isDigit (c : ascii) : bool := between 48 57 (code c).

Definition isSchemeChar (c : ascii) : bool :=
  isAlpha c || isDigit c || Ascii.eqb c "+" || Ascii.eqb c "-" || Ascii.eqb c ".".

(** Leading and trailing C0 controls and spaces are dropped, and every TAB,
    LF and CR inside. *)
Definition isC0OrSpace (c : ascii) : bool := (code c <=? 32)%nat.

Fixpoint dropC0Start (s : string) : string :=
  match s with
  | "" => ""
  | String c r => if isC0OrSpace c then dropC0Start r else s
  end.

Fixpoint dropC0End (s : string) : string :=
  match s with
  | "" => ""
  | String c r =>
      match dropC0End r with
      | "" => if isC0OrSpace c then "" else String c ""
      | r' => String c r'
      end
  end.

Fixpoint dropTabNewline (s : string) : string :=
  match s with
  | "" => ""
  | String c r =>
      if (code c =? 9)%nat || (code c =? 10)%nat || (code c =? 13)%nat
      then dropTabNewline r else String c (dropTabNewline r)
  end.

(** The scheme characters up to the first colon, and what follows it. *)
Fixpoint scanScheme (s : string) : option (string * string) :=
  match s with
  | "" => None
  | String c r =>
      if Ascii.eqb c ":" then Some ("", r)
      else if isSchemeChar c then
        match scanScheme r with
        | Some (sch, rest) => Some (String c sch, rest)
        | None => None
        end
      else None
  end.

Definition parseScheme (s : string) : option (string * string) :=
  match s with
  | String c _ =>
      if isAlpha c then
        match scanScheme s with
        | Some (sch, rest) => Some (toLowerCase sch, rest)
        | None => None
        end
      else None
  | "" => None
  end.

Definition isSpecial (scheme : string) : bool :=
  existsb (String.eqb scheme) ["http"; "https"; "ws"; "wss"; "ftp"].

Definition isSlash (c : ascii) : bool := Ascii.eqb c "/" || Ascii.eqb c "\".

Definition endsAuthority (c : ascii) : bool :=
  isSlash c || Ascii.eqb c "?" || Ascii.eqb c "#".

Fixpoint dropSlashes (s : string) : string :=
  match s with
  | "" => ""
  | String c r => if isSlash c then dropSlashes r else s
  end.

(** The authority, and the rest from the first of [/ \ ? #] on. *)
Fixpoint splitAuthority (s : string) : string * string :=
  match s with
  | "" => ("", "")
  | String c r =>
      if endsAuthority c then ("", s)
      else let '(a, rest) := splitAuthority r in (String c a, rest)
  end.

(** What follows the last [@], the whole when there is none. *)
Fixpoint afterUserinfo (s : string) : string :=
  match s with
  | "" => ""
  | String c r =>
      if Ascii.eqb c "@" then afterUserinfo r
      else if includes "@" r then afterUserinfo r else s
  end.

(** What follows the first [sep], if any. *)
Fixpoint after (sep : ascii) (s : string) : option string :=
  match s with
  | "" => None
  | String c r => if Ascii.eqb c sep then Some r else after sep r
  end.

(** Code points that may not occur in a domain. *)
Definition forbiddenInHost (c : ascii) : bool :=
  (code c <=? 32)%nat || (127 <=? code c)%nat
  || existsb (Ascii.eqb c)
       ["#"; "/"; ":"; "<"; ">"; "?"; "@"; "["; "\"; "]"; "^"; "|"; "%"]%char.

(** The path: up to the query or fragment, [/] when empty, every [\] read
    as [/]. *)
Definition pathOf (rest : string) : string :=
  let p := upTo "?" (upTo "#" rest) in
  if String.eqb p "" then "/"
  else mapChars (fun c => if Ascii.eqb c "\" then "/"%char else c) p.

Definition parseSpecial (rest : string) : option URL.t :=
  let '(authority, tail) := splitAuthority (dropSlashes rest) in
  let hostport := afterUserinfo authority in
  let host := upTo ":" hostport in
  let portOk := match after ":" hostport with
                | Some port => allChars isDigit port
                | None => true
                end in
  if String.eqb host "" then None
  else if negb portOk then None
  else if negb (allChars (fun c => negb (forbiddenInHost c)) host) then None
  else Some (URL.mk (toLowerCase host) (pathOf tail)).

Definition parse (url : string) : option URL.t :=
  let input := dropTabNewline (dropC0End (dropC0Start url)) in
  match parseScheme input with
  | None => None
  | Some (scheme, rest) =>
      if isSpecial scheme then parseSpecial rest
      else Some (URL.mk "" (upTo "?" (upTo "#" rest)))
  end.

End Whatwg.

Definition whatwg : Platform := {| newURL := Whatwg.parse |}.

(* ===================================================================== *)
(** ** Data model ([types.ts]) *)
(* ===================================================================== *)

Module Source.
Record t := mk { title : string; uri : string }.
End Source.

Module NewsArticle.
Record t := mk {
  title : string;
  date : string;
  summary : string;
  takeaways : list string;
  source : Source.t;
  thumbnailUrl : option string
}.
End NewsArticle.
Abbreviation NewsArticle := NewsArticle.t.

Module CompanyNewsSection.
Record t := mk { companyName : string; articles : list NewsArticle }.
End CompanyNewsSection.
Abbreviation CompanyNewsSection := CompanyNewsSection.t.

Module NewsData.
Record t := mk {
  internationalNews : list NewsArticle;
  generalNews : list NewsArticle;
  companyNews : list CompanyNewsSection
}.
End NewsData.
Abbreviation NewsData := NewsData.t.

Module EngagementMetrics.
Record t := mk {
  total_shares : Z;
  facebook_shares : option Z;
  pinterest_shares : option Z;
  twitter_shares : option Z;
  total_links : option Z;
  evergreen_score : option Z
}.
End EngagementMetrics.
Abbreviation EngagementMetrics := EngagementMetrics.t.

Module BuzzSumoArticle.
Record t := mk {
  title : string;
  url : string;
  published_date : string;
  author : option string;
  domain_name : string;
  engagement : EngagementMetrics;
  thumbnail : option string;
  excerpt : option string
}.
End BuzzSumoArticle.
Abbreviation BuzzSumoArticle := BuzzSumoArticle.t.

(** The outcome of an awaited call: its value, or the error it threw. *)
Record Error := { message : string }.

Inductive settled (A : Type) : Type :=
  | fulfilled (value : A)
  | rejected (reason : Error).
Arguments fulfilled {A} value.
Arguments rejected {A} reason.

(* ===================================================================== *)
(** ** Cross-source merge ([services/geminiService.ts]) *)
(* ===================================================================== *)

(** A share count inside a template literal. *)
Definition numberToString (n : Z) : string := pretty n.

Definition convertBuzzSumoToNewsArticle (article : BuzzSumoArticle) : NewsArticle :=
  let shares :=
    numberToString (EngagementMetrics.total_shares (BuzzSumoArticle.engagement article)) in
  {| NewsArticle.title := BuzzSumoArticle.title article;
     NewsArticle.date := BuzzSumoArticle.published_date article;
     NewsArticle.summary :=
       JS.orElse (BuzzSumoArticle.excerpt article)
         ("Trending article from " ++ BuzzSumoArticle.domain_name article
          ++ " with " ++ shares ++ " social shares.");
     NewsArticle.takeaways :=
       [ "High engagement: " ++ shares ++ " total shares across social platforms";
         "Source: " ++ BuzzSumoArticle.domain_name article ];
     NewsArticle.source :=
       {| Source.title := BuzzSumoArticle.domain_name article;
          Source.uri := BuzzSumoArticle.url article |};
     NewsArticle.thumbnailUrl := BuzzSumoArticle.thumbnail article |}.

(** [s.replace(/^https?:\/\//, '')]. *)
Definition replaceHttpScheme (s : string) : string :=
  match JS.stripPrefix "https://" s with
  | Some r => r
  | None => JS.replacePrefix "http://" s
  end.

Definition normalizeUrl `{Platform} (url : string) : string :=
  match newURL url with
  | Some urlObj =>
      JS.replacePrefix "www." (URL.hostname urlObj)
      ++ JS.replaceTrailingSlash (URL.pathname urlObj)
  | None =>
      JS.upTo "?"
        (JS.replaceTrailingSlash
           (JS.replacePrefix "www."
              (replaceHttpScheme (JS.toLowerCase url))))
  end.

Definition normalizeTitle (title : string) : string :=
  JS.trim (JS.collapseSpaces (JS.keepWordAndSpace (JS.toLowerCase title))).

Definition areDuplicateArticles `{Platform} (article1 article2 : NewsArticle) : bool :=
  let url1 := normalizeUrl (Source.uri (NewsArticle.source article1)) in
  let url2 := normalizeUrl (Source.uri (NewsArticle.source article2)) in
  if String.eqb url1 url2 then true
  else
    let title1 := normalizeTitle (NewsArticle.title article1) in
    let title2 := normalizeTitle (NewsArticle.title article2) in
    if String.eqb title1 title2 then true
    else
      let longerTitle :=
        if (String.length title2 <? String.length title1)%nat then title1 else title2 in
      let shorterTitle :=
        if (String.length title2 <? String.length title1)%nat then title2 else title1 in
      if (10 <? String.length shorterTitle)%nat && JS.includes shorterTitle longerTitle
      then true
      else false.

(** The articles already present in the primary result, bucket by bucket. *)
Definition existingArticles (googleNews : NewsData) : list NewsArticle :=
  NewsData.internationalNews googleNews
  ++ NewsData.generalNews googleNews
  ++ flat_map CompanyNewsSection.articles (NewsData.companyNews googleNews).

Definition mergeNewsWithBuzzSumo `{Platform}
    (googleNews : NewsData) (buzzsumoArticles : list BuzzSumoArticle) : NewsData :=
  let buzzsumoNewsArticles := map convertBuzzSumoToNewsArticle buzzsumoArticles in
  let uniqueBuzzsumoArticles :=
    List.filter
      (fun buzzsumoArticle =>
         negb (JS.some (fun existingArticle =>
                          areDuplicateArticles existingArticle buzzsumoArticle)
                 (existingArticles googleNews)))
      buzzsumoNewsArticles in
  {| NewsData.internationalNews := NewsData.internationalNews googleNews;
     NewsData.generalNews := NewsData.generalNews googleNews ++ uniqueBuzzsumoArticles;
     NewsData.companyNews := NewsData.companyNews googleNews |}.

(* ===================================================================== *)
(** ** Secondary source ([services/buzzsumoService.ts]) *)
(* ===================================================================== *)

(** The key under which [deduplicateArticles] remembers an article. *)
Definition dedupKey (article : BuzzSumoArticle) : string :=
  JS.replaceTrailingSlash (JS.toLowerCase (BuzzSumoArticle.url article)).

(** The [filter] of [deduplicateArticles], with the set [seen] that its
    callback reads and updates passed along. *)
Fixpoint dedupFilter (seen : gset string) (articles : list BuzzSumoArticle)
    : list BuzzSumoArticle :=
  match articles with
  | [] => []
  | article :: rest =>
      let normalizedUrl := dedupKey article in
      if bool_decide (normalizedUrl ∈ seen) then dedupFilter seen rest
      else article :: dedupFilter ({[normalizedUrl]} ∪ seen) rest
  end.

Definition deduplicateArticles (articles : list BuzzSumoArticle) : list BuzzSumoArticle :=
  dedupFilter ∅ articles.

Definition telcoCompanyIndicators : list string :=
  [ "pldt"; "globe telecom"; "dito telecommunity"; "dito telecoms";
    "converge ict"; "smart communications";
    "telecommunications"; "telecom"; "telecoms";
    "mobile network"; "broadband"; "internet service provider"; "isp";
    "5g network"; "fiber network"; "cellular";
    "dict"; "ntc"; "telco"; "telcos" ].

Definition smartFalsePositives : list string :=
  [ "smart meter"; "smart grid"; "smart city"; "smart home";
    "smart device"; "smart tv"; "smart watch"; "smart phone";
    "smart technology"; "smart monitoring"; "smart system";
    "smart economics"; "smart solution"; "smart app";
    "smart card"; "be smart"; "work smart"; "smart choice" ].

Definition ditoFalsePositives : list string :=
  [ "dito sa"; "dito ang"; "dito na"; "dito pa";
    "pumunta dito"; "magtungo dito"; "dumating dito" ].

Definition tagalogParticles : list string := [ "sa"; "ang"; "na"; "pa"; "ay" ].

(** The first entry of the list is spelled in the source with the two code
    units U+00C3 U+00A9 between [vend] and [e globe]. *)
Definition globeFalsePositives : list string :=
  [ "vend" ++ String (ascii_of_nat 195) (String (ascii_of_nat 169) "e globe");
    "golden globe"; "globe award";
    "around the globe"; "across the globe"; "globe trot" ].

Definition convergeFalsePositives : list string :=
  [ "fiberxers"; "fiber xers"; "basketball"; "pba" ].

(** [list.some(fp => text.includes(fp))]. *)
Definition includesAny (list : list string) (text : string) : bool :=
  JS.some (fun fp => JS.includes fp text) list.

Definition validateTelcoRelevance (article : BuzzSumoArticle) : bool :=
  let title := JS.toLowerCase (BuzzSumoArticle.title article) in
  let excerpt := JS.toLowerCase (JS.orElse (BuzzSumoArticle.excerpt article) "") in
  let combined := title ++ " " ++ excerpt in
  let hasTelcoContext := includesAny telcoCompanyIndicators combined in
  (* ambiguous "smart" *)
  if JS.includes "smart" title && negb (JS.includes "smart communications" title)
     && includesAny smartFalsePositives title
     && negb hasTelcoContext
  then false
  else
  (* ambiguous "dito" *)
  if JS.includes "dito" title && negb (JS.includes "dito telecom" title)
     && negb (JS.includes "dito network" title)
     && (if includesAny ditoFalsePositives title then true
         else
           let words := JS.splitSpaces title in
           match JS.findIndex (JS.includes "dito") words with
           | Some ditoIndex =>
               let nextWord := nth_error words (ditoIndex + 1) in
               if JS.truthy nextWord
                  && existsb (fun p => bool_decide (nextWord = Some p)) tagalogParticles
               then true
               else negb hasTelcoContext
           | None => false
           end)
  then false
  else
  (* ambiguous "globe" *)
  if JS.includes "globe" title && negb (JS.includes "globe telecom" title)
     && includesAny globeFalsePositives title
  then false
  else
  (* ambiguous "converge" *)
  if JS.includes "converge" title && negb (JS.includes "converge ict" title)
     && includesAny convergeFalsePositives title
  then false
  else true.

Definition sportsKeywords : list string :=
  [ "pba"; "pvl"; "uaap"; "ncaa"; "nba"; "fiba";
    "basketball"; "volleyball"; "gilas";
    "traded"; "debut"; "match"; "game"; "score";
    "fiberxers"; "high speed hitters"; "tropang";
    "golden"; "tournament"; "championship"; "playoffs";
    "injured"; "injures"; "triple-double"; "season";
    "coach"; "player"; "team"; "win"; "loss"; "defeat" ].

Definition lowImportanceKeywords : list string :=
  [ "promo"; "sale"; "discount"; "voucher"; "giveaway";
    "celebrity"; "endorsement"; "ambassador";
    "raffle"; "contest"; "prize";
    "csr"; "charity"; "donation"; "scholarship";
    "award ceremony"; "recognition event";
    "new plan"; "price cut"; "special offer";
    "bundle"; "freebie"; "limited time" ].

Definition highImportanceKeywords : list string :=
  [ "billion"; "million"; "investment"; "capex";
    "infrastructure"; "subsea cable"; "fiber"; "data center";
    "network expansion"; "rollout"; "deployment";
    "dict"; "ntc"; "regulatory"; "policy"; "law";
    "spectrum"; "license"; "permit"; "circular";
    "5g"; "fiber"; "broadband"; "satellite"; "starlink";
    "cybersecurity"; "breach"; "hack"; "outage";
    "merger"; "acquisition"; "partnership"; "alliance";
    "earnings"; "revenue"; "profit"; "quarterly";
    "stock"; "ipo"; "shares";
    "outage"; "disruption"; "complaint"; "npc";
    "data breach"; "privacy"; "security" ].

Definition majorNewsSources : list string :=
  [ "philstar.com"; "mb.com.ph"; "bworldonline.com";
    "rappler.com"; "inquirer.net"; "gmanetwork.com";
    "abs-cbn.com"; "manilatimes.net"; "manilabulletin.com";
    "newsbytes.ph"; "bilyonaryo.com" ].

(** The callback that [filterImportantArticles] hands to [filter]. *)
Definition isImportant (article : BuzzSumoArticle) : bool :=
  let title := JS.toLowerCase (BuzzSumoArticle.title article) in
  let domain := JS.toLowerCase (BuzzSumoArticle.domain_name article) in
  if negb (validateTelcoRelevance article) then false
  else if JS.includes "youtube.com" domain || JS.includes "youtu.be" domain then false
  else if JS.some (fun keyword => JS.includes keyword title) sportsKeywords then false
  else if JS.some (fun keyword => JS.includes keyword title) lowImportanceKeywords then false
  else
    let hasImportantKeyword :=
      JS.some (fun keyword => JS.includes keyword title) highImportanceKeywords in
    let isMajorNewsSource :=
      JS.some (fun source => JS.includes source domain) majorNewsSources in
    hasImportantKeyword
    || (isMajorNewsSource && negb (JS.includes "ad" title)
        && negb (JS.includes "sponsored" title)).

Definition filterImportantArticles (articles : list BuzzSumoArticle) : list BuzzSumoArticle :=
  List.filter isImportant articles.

(** [Array.prototype.sort] with a comparator: a stable sort; [compare a b]
    above zero puts [a] after [b]. *)
Section Sort.
Context {A : Type} (compare : A -> A -> Z).

Fixpoint insertSorted (x : A) (sorted : list A) : list A :=
  match sorted with
  | [] => [x]
  | y :: rest =>
      if (0 <? compare x y)%Z then y :: insertSorted x rest
      else x :: y :: rest
  end.

Fixpoint sort (xs : list A) : list A :=
  match xs with
  | [] => []
  | x :: rest => insertSorted x (sort rest)
  end.
End Sort.

Definition totalShares (article : BuzzSumoArticle) : Z :=
  EngagementMetrics.total_shares (BuzzSumoArticle.engagement article).

(** [(a, b) => b.engagement.total_shares - a.engagement.total_shares]. *)
Definition bySharesDescending (a b : BuzzSumoArticle) : Z :=
  (totalShares b - totalShares a)%Z.

Module BuzzSumoSearchParams.
Record t := mk {
  query : string;
  startDate : string;
  endDate : string;
  limit : option Z;
  country : option string
}.
End BuzzSumoSearchParams.
Abbreviation BuzzSumoSearchParams := BuzzSumoSearchParams.t.

(** A phrase between double quotes, inside the query. *)
Definition quoted (phrase : string) : string :=
  String (ascii_of_nat 34) phrase ++ String (ascii_of_nat 34) "".

Definition comprehensiveQuery : string :=
  "telecom OR telecoms OR telecommunications OR dict OR ntc OR "
  ++ quoted "globe telecom" ++ " OR " ++ quoted "dito telecoms" ++ " OR "
  ++ quoted "dito telecommunity" ++ " OR "
  ++ quoted "converge ict" ++ " OR " ++ quoted "smart communications"
  ++ " OR pldt OR " ++ quoted "sky fiber" ++ " OR "
  ++ "globe OR smart OR converge OR dito "
  ++ "-golden -pvl -pba -basketball -volleyball -nba -fiba -uaap -ncaa "
  ++ "-gilas -" ++ quoted "converge fiberxers"
  ++ " -traded -debut -match -" ++ quoted "high speed hitters".

(** The one search that [fetchPhilippineTelcoNews] issues. *)
Definition telcoNewsParams (startDate endDate : string) : BuzzSumoSearchParams :=
  {| BuzzSumoSearchParams.query := comprehensiveQuery;
     BuzzSumoSearchParams.startDate := startDate;
     BuzzSumoSearchParams.endDate := endDate;
     BuzzSumoSearchParams.country := Some "Philippines";
     BuzzSumoSearchParams.limit := Some 50%Z |}.

(** [fetchPhilippineTelcoNews], over the outcome of the awaited call of
    [fetchBuzzSumoNews]; the function never throws, so its own promise is
    always fulfilled. *)
Section SecondarySource.
Variable fetchBuzzSumoNews : BuzzSumoSearchParams -> settled (list BuzzSumoArticle).

Definition fetchPhilippineTelcoNews (startDate endDate : string)
    : settled (list BuzzSumoArticle) :=
  match fetchBuzzSumoNews (telcoNewsParams startDate endDate) with
  | fulfilled articles =>
      let uniqueArticles := deduplicateArticles articles in
      let importantArticles := filterImportantArticles uniqueArticles in
      let importantArticles := sort bySharesDescending importantArticles in
      fulfilled (firstn 15 importantArticles)
  | rejected error => fulfilled []
  end.
End SecondarySource.

(* ===================================================================== *)
(** ** Title similarity and the [/api/news] handler (server file) *)
(* ===================================================================== *)

(** A count as a JavaScript number. *)
Fixpoint numberOfNat (n : nat) : float :=
  match n with
  | O => 0%float
  | S k => (numberOfNat k + 1)%float
  end.

Definition calculateTitleSimilarity (title1 title2 : string) : float :=
  let norm1 := normalizeTitle title1 in
  let norm2 := normalizeTitle title2 in
  if String.eqb norm1 norm2 then 1%float
  else
    let words1 : gset string := list_to_set (JS.split " " norm1) in
    let words2 : gset string := list_to_set (JS.split " " norm2) in
    let intersection :=
      length (List.filter (fun w => bool_decide (w ∈ words2)) (elements words1)) in
    let union :=
      size (list_to_set (elements words1 ++ elements words2) : gset string) in
    if (0 <? union)%nat then (numberOfNat intersection / numberOfNat union)%float
    else 0%float.

Module Query.
Record t := mk { startDate : option string; endDate : option string }.
End Query.

(** What the handler sends: a status and a JSON body. *)
Inductive Body : Type :=
  | ErrorBody (error : string) (details : option string)
  | NewsBody (geminiNews : NewsData) (buzzsumoArticles : list BuzzSumoArticle).

Record Response := { status : nat; body : Body }.

Section ApiNews.
(** The citation metadata that comes with the primary source's answer. *)
Variable GroundingChunk : Type.

Record GeminiNews := {
  parsedData : NewsData;
  groundingChunks : list GroundingChunk
}.

(** The awaited outcomes of the calls that reach the network. *)
Variable fetchGeminiNews : string -> string -> settled GeminiNews.
Variable fetchBuzzSumoNews : BuzzSumoSearchParams -> settled (list BuzzSumoArticle).
Variable fixAndValidateArticleUrls :
  NewsData -> list GroundingChunk -> list BuzzSumoArticle -> settled NewsData.

(** [app.get('/api/news', ...)]. *)
Definition apiNews (query : Query.t) : Response :=
  if negb (JS.truthy (Query.startDate query)) || negb (JS.truthy (Query.endDate query))
  then {| status := 400;
          body := ErrorBody "Missing required parameters: startDate and endDate" None |}
  else
    let startDate := default "" (Query.startDate query) in
    let endDate := default "" (Query.endDate query) in
    (* Promise.allSettled *)
    let geminiResult := fetchGeminiNews startDate endDate in
    let buzzsumoResult := fetchPhilippineTelcoNews fetchBuzzSumoNews startDate endDate in
    match geminiResult with
    | rejected reason =>
        {| status := 500;
           body := ErrorBody "Failed to fetch news from Gemini API"
                     (Some (message reason)) |}
    | fulfilled value =>
        let buzzsumoArticles :=
          match buzzsumoResult with
          | fulfilled value => value
          | rejected _ => []
          end in
        match fixAndValidateArticleUrls (parsedData value) (groundingChunks value)
                buzzsumoArticles with
        | fulfilled validatedNewsData =>
            {| status := 200; body := NewsBody validatedNewsData buzzsumoArticles |}
        | rejected error =>
            {| status := 500;
               body := ErrorBody "Internal server error" (Some (message error)) |}
        end
    end.
End ApiNews.

(* ===================================================================== *)
(** ** Specification-level notions *)
(* ===================================================================== *)

(** [s] occurs inside [l]. *)
Definition isSubstring (s l : string) : Prop :=
  exists pre post, l = pre ++ s ++ post.

(** The duplicate rule in the specification's words: equal normalized
    addresses, or equal normalized titles, or the shorter normalized title,
    when longer than 10 characters, occurs inside the longer one. *)
Definition isDuplicate `{Platform} (a b : NewsArticle) : Prop :=
  let t1 := normalizeTitle (NewsArticle.title a) in
  let t2 := normalizeTitle (NewsArticle.title b) in
  normalizeUrl (Source.uri (NewsArticle.source a))
    = normalizeUrl (Source.uri (NewsArticle.source b))
  \/ t1 = t2
  \/ (String.length t1 <= String.length t2 /\ 10 < String.length t1 /\ isSubstring t1 t2)
  \/ (String.length t2 <= String.length t1 /\ 10 < String.length t2 /\ isSubstring t2 t1).

(** [kept] is [l] without the elements that fail [P], order and repetitions
    kept. *)
Inductive Filtered {A} (P : A -> Prop) : list A -> list A -> Prop :=
  | Filtered_nil : Filtered P [] []
  | Filtered_keep x l kept : P x -> Filtered P l kept -> Filtered P (x :: l) (x :: kept)
  | Filtered_drop x l kept : ~ P x -> Filtered P l kept -> Filtered P (x :: l) kept.

(** The first article for each key, in order (first occurrence wins). *)
Fixpoint firstOccurrences (key : BuzzSumoArticle -> string)
    (articles : list BuzzSumoArticle) : list BuzzSumoArticle :=
  match articles with
  | [] => []
  | article :: rest =>
      article
      :: List.filter (fun later => negb (String.eqb (key later) (key article)))
           (firstOccurrences key rest)
  end.

(** [deduplicateArticles] keys the articles by [key]. *)
Definition keyedBy (key : BuzzSumoArticle -> string) : Prop :=
  forall articles, deduplicateArticles articles = firstOccurrences key articles.

(** The key of [article] is not in [seen]. *)
Definition unseen (seen : gset string) (article : BuzzSumoArticle) : bool :=
  bool_decide (dedupKey article ∉ seen).

(** The number of words of [X] that [Y] has. *)
Definition shared (X Y : gset string) : nat :=
  length (List.filter (fun w => bool_decide (w ∈ Y)) (elements X)).

(** The number of words after [X] and [Y] are poured into one set. *)
Definition pooled (X Y : gset string) : nat :=
  size (list_to_set (elements X ++ elements Y) : gset string).

(** [a] may stand before [b] in a list ranked by shares. *)
Definition sharesDescending (a b : BuzzSumoArticle) : Prop :=
  (totalShares b <= totalShares a)%Z.

(** [next] is the token right after the first token of [title] that
    contains "dito". *)
Definition followsDito (title next : string) : Prop :=
  exists before word after,
    JS.splitSpaces title = (before ++ word :: next :: after)%list
    /\ Forall (fun w => JS.includes "dito" w = false) before
    /\ JS.includes "dito" word = true.

(* ===================================================================== *)
(** ** Example data *)
(* ===================================================================== *)

(** Articles for the examples. *)
Definition newsArticle (title uri : string) : NewsArticle :=
  {| NewsArticle.title := title;
     NewsArticle.date := "November 2, 2025";
     NewsArticle.summary := "";
     NewsArticle.takeaways := [];
     NewsArticle.source := {| Source.title := "example.com"; Source.uri := uri |};
     NewsArticle.thumbnailUrl := None |}.

Definition buzzArticle (title url domain : string) (shares : Z) : BuzzSumoArticle :=
  {| BuzzSumoArticle.title := title;
     BuzzSumoArticle.url := url;
     BuzzSumoArticle.published_date := "November 2, 2025";
     BuzzSumoArticle.author := None;
     BuzzSumoArticle.domain_name := domain;
     BuzzSumoArticle.engagement :=
       {| EngagementMetrics.total_shares := shares;
          EngagementMetrics.facebook_shares := Some 0%Z;
          EngagementMetrics.pinterest_shares := Some 0%Z;
          EngagementMetrics.twitter_shares := Some 0%Z;
          EngagementMetrics.total_links := Some 0%Z;
          EngagementMetrics.evergreen_score := None |};
     BuzzSumoArticle.thumbnail := None;
     BuzzSumoArticle.excerpt := None |}.

(** Two addresses that differ only by a leading [www.] of the host. *)
Definition plainAddress : string := "https://example.com/news/story".
Definition wwwAddress : string := "https://www.example.com/news/story".

Definition articleAt (url : string) : BuzzSumoArticle :=
  buzzArticle "PLDT expands fiber network" url "example.com" 10.

Definition fiberStory : BuzzSumoArticle :=
  buzzArticle "PLDT expands fiber network" "https://news.example.ph/pldt-fiber"
    "philstar.com" 120.

Definition fiberStoryAgain : BuzzSumoArticle :=
  buzzArticle "PLDT expands fiber network" "https://news.example.ph/PLDT-fiber/"
    "philstar.com" 80.

Definition spectrumStory : BuzzSumoArticle :=
  buzzArticle "NTC opens spectrum review" "https://news.example.ph/ntc-spectrum"
    "rappler.com" 300.

Definition gameStory : BuzzSumoArticle :=
  buzzArticle "Converge FiberXers win PVL championship" "https://news.example.ph/pvl"
    "inquirer.net" 900.

Definition plainStory : BuzzSumoArticle :=
  buzzArticle "Telco opens new office" "https://news.example.ph/office" "rappler.com" 5.

Definition primaryNews : NewsData :=
  {| NewsData.internationalNews := [];
     NewsData.generalNews :=
       [ newsArticle "PLDT expands fiber network in Mindanao, says CEO"
           "https://primary.example.ph/pldt-mindanao" ];
     NewsData.companyNews :=
       [ {| CompanyNewsSection.companyName := "PLDT"; CompanyNewsSection.articles := [] |};
         {| CompanyNewsSection.companyName := "Globe Telecom";
            CompanyNewsSection.articles := [] |};
         {| CompanyNewsSection.companyName := "Converge ICT";
            CompanyNewsSection.articles := [] |};
         {| CompanyNewsSection.companyName := "DITO Telecommunity";
            CompanyNewsSection.articles := [] |} ] |}.

Definition secondaryCopy : BuzzSumoArticle :=
  buzzArticle "PLDT expands fiber network in Mindanao"
    "https://secondary.example.ph/2025/pldt-fiber" "secondary.example.ph" 40.

Definition quotaError : Error := {| message := "GEMINI_API_KEY environment variable not set" |}.


(* ===================================================================== *)
(** ** Strings *)
(* ===================================================================== *)

#[local] Arguments String.append !_ _ : simpl nomatch.

Section StringFacts.
Import JS.

Lemma string_app_cons c (s t : string) : String c s ++ t = String c (s ++ t).
Proof. reflexivity. Qed.

Lemma string_length_app s t : String.length (s ++ t) = String.length s + String.length t.
Proof.
  induction s as [|c s IH]; [done |].
  rewrite string_app_cons. simpl. by rewrite IH.
Qed.

Lemma string_app_nil_r (s : string) : s ++ "" = s.
Proof.
  induction s as [|c s IH]; [done |]. by rewrite string_app_cons, IH.
Qed.

Lemma startsWith_spec p s : startsWith p s = true <-> exists post, s = p ++ post.
Proof.
  revert s. induction p as [|a p IH]; intros s; simpl.
  - split; [intros _; by exists s | done].
  - destruct s as [|b s].
    + split; [done | intros [post Hp]; discriminate].
    + rewrite andb_true_iff, IH, Ascii.eqb_eq. split.
      * intros [-> [post ->]]. by exists post.
      * intros [post Hp]. injection Hp as -> ->. split; [done | by exists post].
Qed.

Lemma includes_spec needle hay : includes needle hay = true <-> isSubstring needle hay.
Proof.
  induction hay as [|c hay IH].
  - simpl. rewrite orb_false_r, startsWith_spec. split.
    + intros [post Hp]. by exists "", post.
    + intros (pre & post & Hp). destruct pre; [by exists post | discriminate].
  - cbn [includes]. rewrite orb_true_iff, startsWith_spec, IH. split.
    + intros [[post Hp] | (pre & post & Hp)].
      * by exists "", post.
      * exists (String c pre), post. by rewrite Hp.
    + intros (pre & post & Hp). destruct pre as [|a pre].
      * left. by exists post.
      * right. exists pre, post. by injection Hp.
Qed.

Lemma isSubstring_length s l : isSubstring s l -> String.length s <= String.length l.
Proof. intros (pre & post & ->). rewrite !string_length_app. lia. Qed.

Lemma string_length_zero s : String.length s = 0 -> s = "".
Proof. by destruct s. Qed.

Lemma isSubstring_same_length s l :
  isSubstring s l -> String.length s = String.length l -> s = l.
Proof.
  intros (pre & post & ->). rewrite !string_length_app. intros Hlen.
  assert (pre = "") as -> by (apply string_length_zero; lia).
  assert (post = "") as -> by (apply string_length_zero; lia).
  simpl. by rewrite string_app_nil_r.
Qed.

Lemma isSubstring_refl s : isSubstring s s.
Proof. exists "", "". simpl. by rewrite string_app_nil_r. Qed.
End StringFacts.

(* ===================================================================== *)
(** ** The duplicate rule and the merge *)
(* ===================================================================== *)

Section Merge.
Context `{Platform}.

Lemma areDuplicateArticles_isDuplicate a b :
  areDuplicateArticles a b = true <-> isDuplicate a b.
Proof.
  unfold areDuplicateArticles, isDuplicate.
  set (u1 := normalizeUrl _). set (u2 := normalizeUrl _).
  set (t1 := normalizeTitle _). set (t2 := normalizeTitle _).
  destruct (String.eqb_spec u1 u2) as [Hu|Hu]; [by split; [left|] |].
  destruct (String.eqb_spec t1 t2) as [Ht|Ht]; [by split; [right; left|] |].
  destruct (Nat.ltb_spec (String.length t2) (String.length t1)) as [Hlt|Hge].
  - cbv beta iota zeta.
    destruct (Nat.ltb_spec 10 (String.length t2)) as [H10|H10].
    + destruct (JS.includes t2 t1) eqn:Hinc.
      * split; [intros _ | done]. right; right; right.
        split; [lia|]. split; [done|]. by apply includes_spec.
      * split; [done |]. intros [?|[?|[(? & _)|(_ & _ & Hs)]]]; try done; [lia|].
        apply includes_spec in Hs. congruence.
    + split; [done |]. intros [?|[?|[(? & _)|(_ & ? & _)]]]; try done; lia.
  - cbv beta iota zeta.
    destruct (Nat.ltb_spec 10 (String.length t1)) as [H10|H10].
    + destruct (JS.includes t1 t2) eqn:Hinc.
      * split; [intros _ | done]. right; right; left.
        split; [lia|]. split; [done|]. by apply includes_spec.
      * split; [done |]. intros [?|[?|[(_ & _ & Hs)|(Hle & _ & Hs)]]]; try done.
        -- apply includes_spec in Hs. congruence.
        -- destruct Ht. symmetry. apply isSubstring_same_length; [done | lia].
    + split; [done |]. intros [?|[?|[(_ & ? & _)|(? & ? & _)]]]; try done; lia.
Qed.

Lemma filter_Filtered {A} (f : A -> bool) (P : A -> Prop) (l : list A) :
  (forall x, f x = true <-> P x) -> Filtered P l (List.filter f l).
Proof.
  intros Hf. induction l as [|x l IH]; simpl; [constructor |].
  destruct (f x) eqn:Hx.
  - apply Filtered_keep; [by apply Hf | done].
  - apply Filtered_drop; [| done]. rewrite <- Hf. congruence.
Qed.

(** [Filtered P l] determines what is kept. *)
Lemma Filtered_functional {A} (P : A -> Prop) (l kept1 kept2 : list A) :
  Filtered P l kept1 -> Filtered P l kept2 -> kept1 = kept2.
Proof.
  intros H1. revert kept2.
  induction H1 as [|x l k Hx _ IH|x l k Hx _ IH]; intros kept2 H2;
    inversion H2; subst; try done; f_equal; by apply IH.
Qed.

(** The test that [mergeNewsWithBuzzSumo] applies to a converted article. *)
Lemma not_duplicate_of_existing (existing : list NewsArticle) (c : NewsArticle) :
  negb (JS.some (fun e => areDuplicateArticles e c) existing) = true
  <-> (forall e, In e existing -> ~ isDuplicate e c).
Proof.
  unfold JS.some. rewrite negb_true_iff, <- not_true_iff_false, existsb_exists.
  split.
  - intros Hno e He Hd. apply Hno. exists e. split; [done |].
    by apply areDuplicateArticles_isDuplicate.
  - intros Hall (e & He & Hd). apply (Hall e He).
    by apply areDuplicateArticles_isDuplicate.
Qed.

Lemma contained_title_isDuplicate (p c : NewsArticle) :
  10 < String.length (normalizeTitle (NewsArticle.title c)) ->
  isSubstring (normalizeTitle (NewsArticle.title c))
              (normalizeTitle (NewsArticle.title p)) ->
  isDuplicate p c.
Proof.
  intros H10 Hsub. right; right; right.
  split; [by apply isSubstring_length | done].
Qed.
End Merge.

(** C1. [areDuplicateArticles a b] is true exactly when the normalized
    addresses are equal, or the normalized titles are equal, or the shorter
    normalized title is longer than 10 characters and occurs inside the
    longer one.  Both https://Example.com/news/story/ and
    https://www.example.com/news/story?utm=1 normalize to
    example.com/news/story, so two articles that carry them are duplicates. *)
Theorem areDuplicateArticles_spec :
  (forall (P : Platform) (a b : NewsArticle),
      areDuplicateArticles a b = true <-> isDuplicate a b)
  /\ @normalizeUrl whatwg "https://Example.com/news/story/" = "example.com/news/story"
  /\ @normalizeUrl whatwg "https://www.example.com/news/story?utm=1"
     = "example.com/news/story"
  /\ (forall a b : NewsArticle,
        Source.uri (NewsArticle.source a) = "https://Example.com/news/story/" ->
        Source.uri (NewsArticle.source b) = "https://www.example.com/news/story?utm=1" ->
        @areDuplicateArticles whatwg a b = true).
Proof.
  split; [intros P a b; apply areDuplicateArticles_isDuplicate |].
  split; [reflexivity |]. split; [reflexivity |].
  intros a b Ha Hb. apply areDuplicateArticles_isDuplicate. left.
  rewrite Ha, Hb. reflexivity.
Qed.

(** C5. The general bucket after the merge is the input's general bucket
    followed, in order, by exactly the converted secondary articles that are
    a duplicate of no article of any primary bucket.  A secondary article
    whose normalized title is longer than 10 characters and occurs inside
    the normalized title of a primary article is dropped; when it is the
    only secondary article the general bucket stays as it was, so a general
    bucket that held the primary article alone still holds exactly that one
    copy. *)
Theorem mergeNewsWithBuzzSumo_general (P : Platform) (googleNews : NewsData) :
  (forall buzzsumoArticles,
      exists kept,
        NewsData.generalNews (mergeNewsWithBuzzSumo googleNews buzzsumoArticles)
        = (NewsData.generalNews googleNews ++ kept)%list
        /\ Filtered
             (fun c => forall e, In e (existingArticles googleNews) -> ~ isDuplicate e c)
             (map convertBuzzSumoToNewsArticle buzzsumoArticles) kept
        /\ (forall p b,
               In p (existingArticles googleNews) ->
               10 < String.length (normalizeTitle (BuzzSumoArticle.title b)) ->
               isSubstring (normalizeTitle (BuzzSumoArticle.title b))
                           (normalizeTitle (NewsArticle.title p)) ->
               ~ In (convertBuzzSumoToNewsArticle b) kept))
  /\ (forall p b,
        In p (existingArticles googleNews) ->
        10 < String.length (normalizeTitle (BuzzSumoArticle.title b)) ->
        isSubstring (normalizeTitle (BuzzSumoArticle.title b))
                    (normalizeTitle (NewsArticle.title p)) ->
        NewsData.generalNews (mergeNewsWithBuzzSumo googleNews [b])
        = NewsData.generalNews googleNews)
  /\ (forall p b,
        NewsData.generalNews googleNews = [p] ->
        10 < String.length (normalizeTitle (BuzzSumoArticle.title b)) ->
        isSubstring (normalizeTitle (BuzzSumoArticle.title b))
                    (normalizeTitle (NewsArticle.title p)) ->
        NewsData.generalNews (mergeNewsWithBuzzSumo googleNews [b]) = [p]).
Proof.
  assert (forall p b,
             In p (existingArticles googleNews) ->
             10 < String.length (normalizeTitle (BuzzSumoArticle.title b)) ->
             isSubstring (normalizeTitle (BuzzSumoArticle.title b))
                         (normalizeTitle (NewsArticle.title p)) ->
             NewsData.generalNews (mergeNewsWithBuzzSumo googleNews [b])
             = NewsData.generalNews googleNews) as Hsingle.
  { intros p b Hp H10 Hsub. unfold mergeNewsWithBuzzSumo. simpl.
    destruct (negb _) eqn:Hkeep; [| apply app_nil_r].
    pose proof (proj1 (not_duplicate_of_existing _ _) Hkeep) as Hnone.
    destruct (Hnone p Hp). by apply contained_title_isDuplicate. }
  split; [| split; [exact Hsingle |]].
  - intros bs. eexists. split; [reflexivity |]. split.
    + apply filter_Filtered. intros c. apply not_duplicate_of_existing.
    + intros p b Hp H10 Hsub Hin. apply filter_In in Hin as [_ Hkeep].
      pose proof (proj1 (not_duplicate_of_existing _ _) Hkeep) as Hnone.
      apply (Hnone p Hp). by apply contained_title_isDuplicate.
  - intros p b Hgeneral H10 Hsub. rewrite (Hsingle p b); [done | | done | done].
    unfold existingArticles. rewrite Hgeneral, !in_app_iff. right; left. by left.
Qed.

(** C10. The merge leaves the international bucket and the company
    sections as they were, and the input's general bucket is a prefix of the
    output's: the merge only appends to the general bucket. *)
Theorem mergeNewsWithBuzzSumo_frame
    (P : Platform) (googleNews : NewsData) (buzzsumoArticles : list BuzzSumoArticle) :
  let merged := mergeNewsWithBuzzSumo googleNews buzzsumoArticles in
  NewsData.internationalNews merged = NewsData.internationalNews googleNews
  /\ NewsData.companyNews merged = NewsData.companyNews googleNews
  /\ exists appended,
       NewsData.generalNews merged = (NewsData.generalNews googleNews ++ appended)%list.
Proof.
  simpl. split; [done |]. split; [done |]. by eexists.
Qed.

(* ===================================================================== *)
(** ** Intra-source deduplication *)
(* ===================================================================== *)

Section Dedup.
Implicit Types (seen : gset string) (articles : list BuzzSumoArticle).

Lemma filter_filter {A} (f g : A -> bool) (l : list A) :
  List.filter f (List.filter g l) = List.filter (fun x => g x && f x) l.
Proof.
  induction l as [|x l IH]; simpl; [done |].
  destruct (g x); simpl; [destruct (f x) |]; by rewrite IH.
Qed.

Lemma dedupFilter_firstOccurrences seen articles :
  dedupFilter seen articles
  = List.filter (unseen seen) (firstOccurrences dedupKey articles).
Proof.
  revert seen. induction articles as [|a rest IH]; intros seen; simpl; [done |].
  rewrite filter_filter. unfold unseen at 1.
  destruct (decide (dedupKey a ∈ seen)) as [Hin|Hnin].
  - rewrite bool_decide_true, bool_decide_false by (done || by intros []).
    rewrite IH. apply filter_ext_in. intros b _. unfold unseen.
    destruct (String.eqb_spec (dedupKey b) (dedupKey a)) as [Heq|Hne]; simpl; [| done].
    rewrite Heq. by rewrite bool_decide_false by (by intros []).
  - rewrite bool_decide_false, bool_decide_true by done.
    f_equal. rewrite IH. apply filter_ext. intros b. unfold unseen.
    destruct (String.eqb_spec (dedupKey b) (dedupKey a)) as [Heq|Hne]; simpl.
    + apply bool_decide_false. set_solver.
    + apply bool_decide_ext. rewrite not_elem_of_union, not_elem_of_singleton. tauto.
Qed.

Lemma deduplicateArticles_firstOccurrences articles :
  deduplicateArticles articles = firstOccurrences dedupKey articles.
Proof.
  unfold deduplicateArticles. rewrite dedupFilter_firstOccurrences.
  apply forallb_filter_id, forallb_forall. intros a _. unfold unseen.
  apply bool_decide_true. set_solver.
Qed.

(** Every article that [dedupFilter] keeps has a key outside [seen], and the
    keys it keeps are pairwise distinct. *)
Lemma dedupFilter_keys seen articles :
  Forall (fun a => dedupKey a ∉ seen) (dedupFilter seen articles)
  /\ NoDup (map dedupKey (dedupFilter seen articles)).
Proof.
  revert seen. induction articles as [|a rest IH]; intros seen; simpl.
  - split; constructor.
  - case_bool_decide as Hin; [apply IH |].
    destruct (IH ({[dedupKey a]} ∪ seen)) as [Hall Hnd]. split.
    + constructor; [done |]. eapply Forall_impl; [apply Hall |].
      intros b Hb. by apply not_elem_of_union in Hb as [_ Hb].
    + simpl. constructor; [| done].
      rewrite list_elem_of_In, in_map_iff. intros (b & Hkey & Hb).
      rewrite Forall_forall in Hall. rewrite <- list_elem_of_In in Hb.
      specialize (Hall b Hb). apply not_elem_of_union in Hall as [Hne _].
      by apply not_elem_of_singleton in Hne.
Qed.

(** A list whose keys are distinct and outside [seen] passes unchanged. *)
Lemma dedupFilter_id seen articles :
  Forall (fun a => dedupKey a ∉ seen) articles ->
  NoDup (map dedupKey articles) ->
  dedupFilter seen articles = articles.
Proof.
  revert seen. induction articles as [|a rest IH]; intros seen Hall Hnd; simpl; [done |].
  inversion Hall as [|? ? Ha Hrest]; subst. inversion Hnd as [|? ? Hfresh Hnd']; subst.
  rewrite bool_decide_false by done. f_equal. apply IH; [| done].
  rewrite Forall_forall in *. intros b Hb Hin.
  apply elem_of_union in Hin as [Hin|Hin]; [| by apply (Hrest b Hb)].
  apply elem_of_singleton in Hin. apply Hfresh. rewrite <- Hin.
  apply list_elem_of_fmap. by exists b.
Qed.
End Dedup.

(** C8. [deduplicateArticles] is idempotent, and a list whose keys are
    already pairwise distinct comes back unchanged. *)
Theorem deduplicateArticles_idempotent :
  (forall articles,
      deduplicateArticles (deduplicateArticles articles) = deduplicateArticles articles)
  /\ (forall articles,
        NoDup (map dedupKey articles) -> deduplicateArticles articles = articles).
Proof.
  split.
  - intros articles. unfold deduplicateArticles.
    destruct (dedupFilter_keys ∅ articles) as [Hall Hnd].
    by apply dedupFilter_id.
  - intros articles Hnd. apply dedupFilter_id; [| done].
    apply Forall_forall. intros a _. set_solver.
Qed.

(** C6, as stated, fails: the two addresses have the same normalized form
    example.com/news/story, yet [deduplicateArticles] keeps both articles,
    so its key is not the normalized address. *)
Lemma deduplicateArticles_not_keyed_by_normalizeUrl :
  @normalizeUrl whatwg plainAddress = @normalizeUrl whatwg wwwAddress
  /\ deduplicateArticles [articleAt plainAddress; articleAt wwwAddress]
     = [articleAt plainAddress; articleAt wwwAddress]
  /\ ~ keyedBy (fun article => @normalizeUrl whatwg (BuzzSumoArticle.url article)).
Proof.
  split; [reflexivity |].
  assert (deduplicateArticles [articleAt plainAddress; articleAt wwwAddress]
          = [articleAt plainAddress; articleAt wwwAddress]) as Hkept
    by (vm_compute; reflexivity).
  split; [exact Hkept |].
  intros Hkeyed.
  specialize (Hkeyed [articleAt plainAddress; articleAt wwwAddress]).
  rewrite Hkept in Hkeyed. vm_compute in Hkeyed. discriminate Hkeyed.
Qed.

(** C6, amended.  The key of [deduplicateArticles] is the address in lower
    case without one trailing slash: the output is the list of first
    occurrences for that key, so no two articles of the output have the same
    key. *)
Theorem deduplicateArticles_keyed_by_dedupKey :
  keyedBy dedupKey
  /\ (forall articles, NoDup (map dedupKey (deduplicateArticles articles)))
  /\ (forall article,
        dedupKey article
        = JS.replaceTrailingSlash (JS.toLowerCase (BuzzSumoArticle.url article))).
Proof.
  split; [exact deduplicateArticles_firstOccurrences |].
  split; [intros articles; apply dedupFilter_keys | reflexivity].
Qed.

(* ===================================================================== *)
(** ** Title similarity *)
(* ===================================================================== *)

Section Similarity.
Implicit Types (X Y : gset string).

Lemma NoDup_List_filter {A} (f : A -> bool) (l : list A) :
  NoDup l -> NoDup (List.filter f l).
Proof.
  induction 1 as [|x l Hx Hnd IH]; simpl; [constructor |].
  destruct (f x); [| done]. constructor; [| done].
  rewrite list_elem_of_In, filter_In, <- list_elem_of_In. tauto.
Qed.

Lemma shared_size X Y : shared X Y = size (X ∩ Y).
Proof.
  unfold shared, size, set_size. simpl. apply Permutation_length.
  apply NoDup_Permutation.
  - apply NoDup_List_filter, NoDup_elements.
  - apply NoDup_elements.
  - intros w. rewrite list_elem_of_In, filter_In, <- list_elem_of_In.
    rewrite !elem_of_elements, bool_decide_eq_true. set_solver.
Qed.

Lemma pooled_size X Y : pooled X Y = size (X ∪ Y).
Proof.
  unfold pooled. by rewrite list_to_set_app_L, !list_to_set_elements_L.
Qed.

Lemma shared_comm X Y : shared X Y = shared Y X.
Proof. rewrite !shared_size. by rewrite (comm_L (∩)). Qed.

Lemma pooled_comm X Y : pooled X Y = pooled Y X.
Proof. rewrite !pooled_size. by rewrite (comm_L (∪)). Qed.
End Similarity.

(** C9. [calculateTitleSimilarity] gives the same number whichever title
    comes first, and 1.0 for a title against itself. *)
Theorem calculateTitleSimilarity_symmetric_reflexive :
  (forall A B : string, calculateTitleSimilarity A B = calculateTitleSimilarity B A)
  /\ (forall T : string, calculateTitleSimilarity T T = 1%float).
Proof.
  split.
  - intros A B. unfold calculateTitleSimilarity.
    rewrite (String.eqb_sym (normalizeTitle B)).
    destruct (String.eqb _ _); [done |].
    fold (shared (list_to_set (JS.split " " (normalizeTitle A)))
                 (list_to_set (JS.split " " (normalizeTitle B)))).
    fold (shared (list_to_set (JS.split " " (normalizeTitle B)))
                 (list_to_set (JS.split " " (normalizeTitle A)))).
    fold (pooled (list_to_set (JS.split " " (normalizeTitle A)))
                 (list_to_set (JS.split " " (normalizeTitle B)))).
    fold (pooled (list_to_set (JS.split " " (normalizeTitle B)))
                 (list_to_set (JS.split " " (normalizeTitle A)))).
    by rewrite shared_comm, pooled_comm.
  - intros T. unfold calculateTitleSimilarity. by rewrite String.eqb_refl.
Qed.

(* ===================================================================== *)
(** ** The secondary source's pipeline *)
(* ===================================================================== *)

Section Pipeline.
Implicit Types (a b x : BuzzSumoArticle) (l : list BuzzSumoArticle).

Lemma insertSorted_Permutation x l :
  Permutation (insertSorted bySharesDescending x l) (x :: l).
Proof.
  induction l as [|y l IH]; simpl; [done |].
  destruct (0 <? bySharesDescending x y)%Z; [| done].
  rewrite IH. apply perm_swap.
Qed.

Lemma sort_Permutation l : Permutation (sort bySharesDescending l) l.
Proof.
  induction l as [|x l IH]; simpl; [done |].
  rewrite insertSorted_Permutation. by constructor.
Qed.

Lemma insertSorted_sorted x l :
  StronglySorted sharesDescending l ->
  StronglySorted sharesDescending (insertSorted bySharesDescending x l).
Proof.
  induction 1 as [|y l Hl IH Hy]; simpl; [repeat constructor |].
  destruct (Z.ltb_spec 0 (bySharesDescending x y)) as [Hlt|Hge].
  - constructor; [done |].
    eapply Permutation_Forall; [symmetry; apply insertSorted_Permutation |].
    constructor; [| done]. unfold sharesDescending, bySharesDescending in *. lia.
  - constructor; [by constructor |].
    assert (sharesDescending x y) as Hxy
      by (unfold sharesDescending, bySharesDescending in *; lia).
    constructor; [done |]. eapply Forall_impl; [apply Hy |].
    intros b Hb. unfold sharesDescending in *. lia.
Qed.

Lemma sort_sorted l : StronglySorted sharesDescending (sort bySharesDescending l).
Proof.
  induction l as [|x l IH]; simpl; [constructor | by apply insertSorted_sorted].
Qed.

Lemma In_firstn {A} (x : A) n (l : list A) : In x (firstn n l) -> In x l.
Proof.
  revert n. induction l as [|y l IH]; intros [|n]; simpl; try tauto.
  intros [->|Hin]; [by left | right; by eapply IH].
Qed.

Lemma In_skipn {A} (x : A) n (l : list A) : In x (skipn n l) -> In x l.
Proof.
  revert n. induction l as [|y l IH]; intros [|n]; simpl; try tauto.
  intros Hin. right. by eapply IH.
Qed.

Lemma firstn_sorted n l :
  StronglySorted sharesDescending l -> StronglySorted sharesDescending (firstn n l).
Proof.
  intros Hl. revert n. induction Hl as [|y l Hl IH Hy]; intros [|n]; simpl;
    try constructor; [apply IH |].
  rewrite Forall_forall in *. intros b Hb. apply Hy.
  rewrite list_elem_of_In in *. by eapply In_firstn.
Qed.

(** What is cut off ranks no higher than what is kept. *)
Lemma skipn_below_firstn n l :
  StronglySorted sharesDescending l ->
  Forall (fun kept => Forall (sharesDescending kept) (skipn n l)) (firstn n l).
Proof.
  intros Hl. revert n. induction Hl as [|y l Hl IH Hy]; intros [|n]; simpl;
    try constructor; [| apply IH].
  rewrite Forall_forall in *. intros b Hb. apply Hy.
  rewrite list_elem_of_In in *. by eapply In_skipn.
Qed.

Lemma isImportant_relevant a : isImportant a = true -> validateTelcoRelevance a = true.
Proof. unfold isImportant. by destruct (validateTelcoRelevance a). Qed.
End Pipeline.

(** C2. When the secondary source returns a list of articles,
    [fetchPhilippineTelcoNews] returns at most 15 articles, ranked by
    [total_shares] from high to low; each of them is in the deduplicated
    list, passes the relevance validation and passes the importance
    classification.  Together with what the cut to 15 leaves out they are
    the survivors of the three steps, and nothing left out ranks above a
    returned article. *)
Theorem fetchPhilippineTelcoNews_pipeline
    (fetchBuzzSumoNews : BuzzSumoSearchParams -> settled (list BuzzSumoArticle))
    (startDate endDate : string) (articles : list BuzzSumoArticle) :
  fetchBuzzSumoNews (telcoNewsParams startDate endDate) = fulfilled articles ->
  exists out leftOut,
    fetchPhilippineTelcoNews fetchBuzzSumoNews startDate endDate = fulfilled out
    /\ length out <= 15
    /\ StronglySorted sharesDescending out
    /\ Forall (fun a => In a (deduplicateArticles articles)
                        /\ validateTelcoRelevance a = true
                        /\ isImportant a = true) out
    /\ Permutation (out ++ leftOut)
         (filterImportantArticles (deduplicateArticles articles))
    /\ (length out < 15 -> leftOut = [])
    /\ Forall (fun kept => Forall (sharesDescending kept) leftOut) out.
Proof.
  intros Hfetch. unfold fetchPhilippineTelcoNews. rewrite Hfetch.
  set (survivors := filterImportantArticles (deduplicateArticles articles)).
  set (ranked := sort bySharesDescending survivors).
  exists (firstn 15 ranked), (skipn 15 ranked).
  split; [done |]. split; [apply firstn_le_length |].
  split; [apply firstn_sorted, sort_sorted |]. split; [| split; [| split]].
  - apply Forall_forall. intros a Ha. rewrite list_elem_of_In in Ha.
    apply In_firstn in Ha.
    assert (In a survivors) as Hs.
    { rewrite <- !list_elem_of_In in *. by rewrite <- (sort_Permutation survivors). }
    apply filter_In in Hs as [Hin Himp].
    split; [done |]. split; [by apply isImportant_relevant | done].
  - rewrite firstn_skipn. apply sort_Permutation.
  - intros Hshort. apply length_zero_iff_nil. rewrite length_skipn.
    rewrite length_firstn in Hshort. lia.
  - apply skipn_below_firstn, sort_sorted.
Qed.

(* ===================================================================== *)
(** ** Importance classification and relevance validation *)
(* ===================================================================== *)

Section Filters.
Import JS.

Lemma some_false {A} (p : A -> bool) (l : list A) :
  some p l = false <-> (forall x, In x l -> p x = false).
Proof.
  unfold some. rewrite <- not_true_iff_false, existsb_exists. split.
  - intros Hno x Hx. apply not_true_iff_false. intros Hp. apply Hno. by exists x.
  - intros Hall (x & Hx & Hp). rewrite (Hall x Hx) in Hp. discriminate.
Qed.

Lemma some_true {A} (p : A -> bool) (l : list A) :
  some p l = true <-> (exists x, In x l /\ p x = true).
Proof. apply existsb_exists. Qed.

(** Tokens. *)
Lemma splitSpaces_cons s : exists w ws, splitSpaces s = w :: ws.
Proof.
  induction s as [|c r (w & ws & IH)]; simpl; [by eexists _, _ |].
  destruct (isSpace c).
  - destruct r as [|c' r']; [by eexists _, _ |].
    destruct (isSpace c'); [by eexists _, _ | by eexists _, _].
  - rewrite IH. by eexists _, _.
Qed.

Lemma splitSpaces_space c r :
  isSpace c = true ->
  splitSpaces (String c r) = splitSpaces r
  \/ splitSpaces (String c r) = "" :: splitSpaces r.
Proof.
  intros Hc. simpl. rewrite Hc. destruct r as [|c' r']; [by right |].
  destruct (isSpace c'); [by left | by right].
Qed.

(** A needle without white space that starts the text starts its first
    token. *)
Lemma startsWith_first_token needle s w ws :
  allChars (fun c => negb (isSpace c)) needle = true ->
  startsWith needle s = true ->
  splitSpaces s = w :: ws ->
  startsWith needle w = true.
Proof.
  revert s w ws. induction needle as [|a needle IH]; intros s w ws Hns Hst Hsp; [done |].
  simpl in Hns. apply andb_true_iff in Hns as [Ha Hns].
  destruct s as [|b s]; [done |]. simpl in Hst.
  apply andb_true_iff in Hst as [Hab Hst]. apply Ascii.eqb_eq in Hab as <-.
  simpl in Hsp. apply negb_true_iff in Ha. rewrite Ha in Hsp.
  destruct (splitSpaces_cons s) as (w' & ws' & Hs'). rewrite Hs' in Hsp.
  simpl in Hsp. injection Hsp as <- <-. simpl.
  rewrite Ascii.eqb_refl. simpl. by eapply IH.
Qed.

Lemma includes_startsWith needle s : startsWith needle s = true -> includes needle s = true.
Proof. intros Hst. destruct s; simpl; by rewrite Hst. Qed.

Lemma includes_cons needle c s : includes needle s = true -> includes needle (String c s) = true.
Proof. intros Hin. simpl. rewrite Hin. apply orb_true_r. Qed.

(** A needle without white space that occurs in the text occurs in one of
    its tokens. *)
Lemma includes_some_token needle s :
  allChars (fun c => negb (isSpace c)) needle = true ->
  includes needle s = true ->
  some (includes needle) (splitSpaces s) = true.
Proof.
  intros Hns. induction s as [|c r IH]; intros Hin.
  - simpl in *. by rewrite Hin.
  - destruct (splitSpaces_cons (String c r)) as (w & ws & Hsp).
    cbn [includes] in Hin. apply orb_true_iff in Hin as [Hst|Hin].
    + rewrite Hsp. simpl. erewrite includes_startsWith; [done |].
      by eapply startsWith_first_token.
    + specialize (IH Hin). destruct (isSpace c) eqn:Hc.
      * destruct (splitSpaces_space c r Hc) as [-> | ->]; [done |].
        simpl. rewrite orb_true_iff. by right.
      * simpl. rewrite Hc. destruct (splitSpaces_cons r) as (w' & ws' & Hr).
        rewrite Hr in *. simpl in *. apply orb_true_iff in IH as [Hw|Hws].
        -- rewrite Hw. by rewrite orb_true_r.
        -- rewrite Hws. apply orb_true_r.
Qed.

Lemma findIndex_some {A} (p : A -> bool) (l : list A) :
  some p l = true -> exists i, findIndex p l = Some i.
Proof.
  induction l as [|x l IH]; simpl; [done |].
  destruct (p x); [by eexists |]. simpl. intros Hl.
  destruct (IH Hl) as [i ->]. by eexists.
Qed.

Lemma findIndex_first {A} (p : A -> bool) (before : list A) x after :
  Forall (fun y => p y = false) before -> p x = true ->
  findIndex p (before ++ x :: after)%list = Some (length before).
Proof.
  induction 1 as [|y before Hy _ IH]; intros Hx; simpl; [by rewrite Hx |].
  by rewrite Hy, IH.
Qed.

Lemma nth_error_after {A} (before : list A) x next after :
  nth_error (before ++ x :: next :: after)%list (length before + 1) = Some next.
Proof. induction before as [|y before IH]; simpl; [done | apply IH]. Qed.
End Filters.

(** C3. Of the articles that pass the relevance validation,
    [filterImportantArticles] keeps exactly those whose domain contains
    neither youtube.com nor youtu.be, whose title in lower case contains no
    sports keyword and no low-importance keyword, and either contains a
    high-importance keyword or comes from a domain of the major-outlet list
    while the title contains neither "ad" nor "sponsored" anywhere, inside a
    word or not. *)
Theorem filterImportantArticles_keeps
    (articles : list BuzzSumoArticle) (article : BuzzSumoArticle) :
  validateTelcoRelevance article = true ->
  let title := JS.toLowerCase (BuzzSumoArticle.title article) in
  let domain := JS.toLowerCase (BuzzSumoArticle.domain_name article) in
  In article (filterImportantArticles articles)
  <-> In article articles
      /\ JS.includes "youtube.com" domain = false
      /\ JS.includes "youtu.be" domain = false
      /\ (forall keyword, In keyword sportsKeywords -> JS.includes keyword title = false)
      /\ (forall keyword, In keyword lowImportanceKeywords ->
                          JS.includes keyword title = false)
      /\ ((exists keyword, In keyword highImportanceKeywords
                           /\ JS.includes keyword title = true)
          \/ ((exists source, In source majorNewsSources
                              /\ JS.includes source domain = true)
              /\ JS.includes "ad" title = false
              /\ JS.includes "sponsored" title = false)).
Proof.
  intros Hrel title domain. unfold filterImportantArticles.
  rewrite filter_In. apply and_iff_compat_l.
  unfold isImportant. rewrite Hrel. fold title domain. cbn [negb].
  rewrite <- !some_false, <- !some_true.
  destruct (JS.includes "youtube.com" domain); [cbn; intuition discriminate |].
  destruct (JS.includes "youtu.be" domain); [cbn; intuition discriminate |].
  cbn [orb].
  destruct (JS.some _ sportsKeywords); [intuition discriminate |].
  destruct (JS.some _ lowImportanceKeywords); [intuition discriminate |].
  rewrite orb_true_iff, !andb_true_iff, !negb_true_iff. tauto.
Qed.

(** The three ways in which the "dito" block of [validateTelcoRelevance]
    rejects a title that triggers it. *)
Lemma dito_block_rejects (article : BuzzSumoArticle) :
  let title := JS.toLowerCase (BuzzSumoArticle.title article) in
  let excerpt := JS.toLowerCase (JS.orElse (BuzzSumoArticle.excerpt article) "") in
  JS.includes "dito" title = true ->
  JS.includes "dito telecom" title = false ->
  JS.includes "dito network" title = false ->
  (exists phrase, In phrase ditoFalsePositives /\ JS.includes phrase title = true)
  \/ (exists next, In next tagalogParticles /\ followsDito title next)
  \/ (forall indicator, In indicator telcoCompanyIndicators ->
                        JS.includes indicator (title ++ " " ++ excerpt) = false) ->
  validateTelcoRelevance article = false.
Proof.
  intros title excerpt Hdito Htelecom Hnetwork Hcase.
  unfold validateTelcoRelevance. fold title. fold excerpt.
  destruct (_ && negb (includesAny telcoCompanyIndicators _)); [done |].
  rewrite Hdito, Htelecom, Hnetwork. cbn [negb andb].
  destruct (includesAny ditoFalsePositives title) eqn:Hphrase; [done |].
  destruct (findIndex_some _ _ (includes_some_token "dito" title eq_refl Hdito))
    as [ditoIndex Hindex].
  rewrite Hindex.
  destruct Hcase
    as [Hp | [(next & Hnext & before & word & after & Hsplit & Hbefore & Hword) | Hnone]].
  - apply some_true in Hp. unfold includesAny in Hphrase. congruence.
  - rewrite Hsplit, findIndex_first in Hindex by done.
    injection Hindex as <-. rewrite Hsplit, nth_error_after.
    assert (JS.truthy (Some next) = true) as ->.
    { simpl. repeat destruct Hnext as [<- | Hnext]; done. }
    assert (existsb (fun p => bool_decide (Some next = Some p)) tagalogParticles = true)
      as ->.
    { apply existsb_exists. exists next. split; [done |]. by apply bool_decide_true. }
    done.
  - apply some_false in Hnone. unfold includesAny at 1. rewrite Hnone.
    by destruct (_ && _).
Qed.

(** C4. For an article whose title in lower case contains "dito" but
    neither "dito telecom" nor "dito network", [validateTelcoRelevance] is
    false when the title contains one of the literal Tagalog phrases, or
    when the token right after the first token that contains "dito" is one
    of sa, ang, na, pa, ay, or when the title and excerpt together contain
    no telco-context indicator.  An article titled
    "Pumunta dito sa Manila for vacation" is not relevant. *)
Theorem validateTelcoRelevance_dito :
  (forall article : BuzzSumoArticle,
      let title := JS.toLowerCase (BuzzSumoArticle.title article) in
      let excerpt := JS.toLowerCase (JS.orElse (BuzzSumoArticle.excerpt article) "") in
      JS.includes "dito" title = true ->
      JS.includes "dito telecom" title = false ->
      JS.includes "dito network" title = false ->
      (exists phrase, In phrase ditoFalsePositives /\ JS.includes phrase title = true)
      \/ (exists next, In next tagalogParticles /\ followsDito title next)
      \/ (forall indicator, In indicator telcoCompanyIndicators ->
                            JS.includes indicator (title ++ " " ++ excerpt) = false) ->
      validateTelcoRelevance article = false)
  /\ (forall article : BuzzSumoArticle,
        BuzzSumoArticle.title article = "Pumunta dito sa Manila for vacation" ->
        validateTelcoRelevance article = false).
Proof.
  split; [exact dito_block_rejects |].
  intros article Htitle. apply dito_block_rejects; rewrite Htitle; try reflexivity.
  left. exists "dito sa". split; [simpl; tauto | reflexivity].
Qed.

(* ===================================================================== *)
(** ** Failures of the two sources *)
(* ===================================================================== *)

Lemma truthy_nonempty (s : string) : s <> "" -> JS.truthy (Some s) = true.
Proof. intros Hs. simpl. by destruct (String.eqb_spec s ""). Qed.

(** Runs the handler past its check of the two dates. *)
Ltac past_the_dates Hs He :=
  unfold apiNews; cbn [Query.startDate Query.endDate]; rewrite Hs, He; simpl.

(** C7. With both dates given, a failure of the primary fetch makes the
    request fail with status 500 and the failure's message in the answer.
    A failure of the secondary fetch is caught: [fetchPhilippineTelcoNews]
    is fulfilled with the empty list, the answer is the one of a secondary
    source that found nothing, and once the addresses are repaired the
    request succeeds with an empty list of secondary articles. *)
Theorem apiNews_source_failures
    (GroundingChunk : Type)
    (fetchGeminiNews : string -> string -> settled (GeminiNews GroundingChunk))
    (fetchBuzzSumoNews : BuzzSumoSearchParams -> settled (list BuzzSumoArticle))
    (fixAndValidateArticleUrls :
       NewsData -> list GroundingChunk -> list BuzzSumoArticle -> settled NewsData)
    (startDate endDate : string) :
  startDate <> "" -> endDate <> "" ->
  let query := Query.mk (Some startDate) (Some endDate) in
  let answer :=
    apiNews GroundingChunk fetchGeminiNews fetchBuzzSumoNews
      fixAndValidateArticleUrls query in
  (forall reason,
      fetchGeminiNews startDate endDate = rejected reason ->
      answer = {| status := 500;
                  body := ErrorBody "Failed to fetch news from Gemini API"
                            (Some (message reason)) |})
  /\ (forall error,
        fetchBuzzSumoNews (telcoNewsParams startDate endDate) = rejected error ->
        fetchPhilippineTelcoNews fetchBuzzSumoNews startDate endDate = fulfilled []
        /\ answer = apiNews GroundingChunk fetchGeminiNews (fun _ => fulfilled [])
                      fixAndValidateArticleUrls query
        /\ (forall value validated,
              fetchGeminiNews startDate endDate = fulfilled value ->
              fixAndValidateArticleUrls (parsedData _ value) (groundingChunks _ value) []
              = fulfilled validated ->
              answer = {| status := 200; body := NewsBody validated [] |})).
Proof.
  intros Hstart Hend query answer.
  pose proof (truthy_nonempty _ Hstart) as Hs.
  pose proof (truthy_nonempty _ Hend) as He.
  split.
  - intros reason Hrejected. subst answer query. past_the_dates Hs He.
    by rewrite Hrejected.
  - intros error Hrejected.
    assert (fetchPhilippineTelcoNews fetchBuzzSumoNews startDate endDate = fulfilled [])
      as Hempty by (unfold fetchPhilippineTelcoNews; by rewrite Hrejected).
    split; [exact Hempty |]. split.
    + subst answer query. past_the_dates Hs He. by rewrite Hempty.
    + intros value validated Hvalue Hfixed. subst answer query.
      past_the_dates Hs He. by rewrite Hvalue, Hempty, Hfixed.
Qed.

(* ===================================================================== *)
(** ** The theorems at concrete inputs *)
(* ===================================================================== *)

(** Two articles with different titles and the two addresses of C1. *)
Lemma areDuplicateArticles_spec_example :
  @areDuplicateArticles whatwg
    (newsArticle "Globe Telecom posts record revenue" "https://Example.com/news/story/")
    (newsArticle "NTC issues new circular" "https://www.example.com/news/story?utm=1")
  = true.
Proof.
  apply (proj2 (proj2 (proj2 areDuplicateArticles_spec))); reflexivity.
Defined.

(** A fetch of four articles: one is a repeat, one is about sports. *)
Lemma fetchPhilippineTelcoNews_pipeline_example :
  exists out leftOut,
    fetchPhilippineTelcoNews
      (fun _ => fulfilled [fiberStory; gameStory; fiberStoryAgain; spectrumStory])
      "2025-10-26" "2025-11-02"
    = fulfilled out
    /\ length out <= 15
    /\ StronglySorted sharesDescending out
    /\ Forall (fun a =>
                 In a (deduplicateArticles
                         [fiberStory; gameStory; fiberStoryAgain; spectrumStory])
                 /\ validateTelcoRelevance a = true
                 /\ isImportant a = true) out
    /\ Permutation (out ++ leftOut)
         (filterImportantArticles
            (deduplicateArticles [fiberStory; gameStory; fiberStoryAgain; spectrumStory]))
    /\ (length out < 15 -> leftOut = [])
    /\ Forall (fun kept => Forall (sharesDescending kept) leftOut) out.
Proof.
  apply (fetchPhilippineTelcoNews_pipeline
           (fun _ => fulfilled [fiberStory; gameStory; fiberStoryAgain; spectrumStory])).
  reflexivity.
Defined.

(** Settles a goal for each keyword of a literal list. *)
Ltac each_keyword Hk :=
  simpl in Hk; repeat (destruct Hk as [<- | Hk]; [reflexivity |]); destruct Hk.

(** An article kept for its outlet alone. *)
Lemma filterImportantArticles_keeps_example :
  In plainStory (filterImportantArticles [gameStory; plainStory]).
Proof.
  apply (filterImportantArticles_keeps [gameStory; plainStory] plainStory);
    [reflexivity |].
  split; [simpl; tauto |]. split; [reflexivity |]. split; [reflexivity |].
  split; [| split].
  - intros keyword Hk. each_keyword Hk.
  - intros keyword Hk. each_keyword Hk.
  - right. split; [| split; reflexivity].
    exists "rappler.com". split; [simpl; tauto | reflexivity].
Defined.

(** A title whose token after the one containing dito is a particle. *)
Lemma validateTelcoRelevance_dito_example :
  validateTelcoRelevance
    (buzzArticle "Nandito ay masaya" "https://news.example.ph/masaya" "rappler.com" 3)
  = false.
Proof.
  apply (proj1 validateTelcoRelevance_dito); try reflexivity.
  right; left. exists "ay". split; [simpl; tauto |].
  exists [], "nandito", ["masaya"]. split; [reflexivity |]. split; [constructor | reflexivity].
Defined.

(** The same event from both sources: one copy stays in the general bucket. *)
Lemma mergeNewsWithBuzzSumo_general_example :
  NewsData.generalNews (@mergeNewsWithBuzzSumo whatwg primaryNews [secondaryCopy])
  = [ newsArticle "PLDT expands fiber network in Mindanao, says CEO"
        "https://primary.example.ph/pldt-mindanao" ].
Proof.
  apply (proj2 (proj2 (mergeNewsWithBuzzSumo_general whatwg primaryNews))).
  - reflexivity.
  - vm_compute. lia.
  - exists "", " says ceo". reflexivity.
Defined.

(** Both sources fail: the answer carries the primary failure's message. *)
Lemma apiNews_source_failures_example :
  apiNews unit (fun _ _ => rejected quotaError)
    (fun _ => rejected {| message := "BuzzSumo API request failed with status 500: " |})
    (fun parsedData _ _ => fulfilled parsedData)
    (Query.mk (Some "2025-10-26") (Some "2025-11-02"))
  = {| status := 500;
       body := ErrorBody "Failed to fetch news from Gemini API"
                 (Some "GEMINI_API_KEY environment variable not set") |}.
Proof.
  refine (proj1 (apiNews_source_failures unit (fun _ _ => rejected quotaError)
                   (fun _ => rejected {| message := "BuzzSumo API request failed with status 500: " |})
                   (fun parsedData _ _ => fulfilled parsedData)
                   "2025-10-26" "2025-11-02" _ _) quotaError _);
    [discriminate | discriminate | reflexivity].
Defined.

(** A list with two distinct keys comes back unchanged. *)
Lemma deduplicateArticles_idempotent_example :
  deduplicateArticles [fiberStory; spectrumStory] = [fiberStory; spectrumStory].
Proof.
  apply (proj2 deduplicateArticles_idempotent). simpl.
  repeat constructor; rewrite ?list_elem_of_In; simpl; intuition discriminate.
Defined.
